(** * go-expert-otel: the telemetry initializer and the tracer handle

    A shallow embedding of [otel-lib/pkg/otel.go] and of the demonstration
    entry point that uses it.  The package is glue around the OpenTelemetry
    SDK, so the embedding has three layers:

    - the values the package builds and hands to the SDK (attributes,
      option lists, the [Config] and [Provider] structs) are ordinary
      data;
    - the SDK constructors that can fail ([resource.New], [otlptrace.New])
      are oracles, variables of a section: nothing is assumed about their
      results;
    - every call into the SDK is appended to a chronological log kept in
      the [World], next to the process-wide state of package [otel], so
      that "what was passed" and "what was installed" are both
      observable. *)

From Stdlib Require Import String List ZArith Bool Lia.
From ExtLib Require Import Structures.Monad Structures.MonadState.
From ExtLib Require Import Data.Monads.StateMonad.
Import ListNotations.
Import MonadNotation.
Local Open Scope string_scope.
Local Open Scope monad_scope.

(** ** Errors

    Go's [error] interface, restricted to what the package produces and
    consumes: an error coming out of a library, and the value built by
    [fmt.Errorf] with one [%w] verb. *)

Inductive error : Type :=
| errors_New (msg : string)
| fmt_wrapError (msg : string) (err : error).

Definition Error (e : error) : string :=
  match e with
  | errors_New msg => msg
  | fmt_wrapError msg _ => msg
  end.

Definition Unwrap (e : error) : option error :=
  match e with
  | errors_New _ => None
  | fmt_wrapError _ err => Some err
  end.

(** [fmt.Errorf(prefix + "%w", err)] for a non-nil [err]. *)
Definition fmt_Errorf_w (prefix : string) (err : error) : error :=
  fmt_wrapError (prefix ++ Error err) err.

(** [errors.Is] along the [Unwrap] chain, as a relation. *)
Inductive errors_Is : error -> error -> Prop :=
| errors_Is_here e : errors_Is e e
| errors_Is_wrapped msg e target :
    errors_Is e target -> errors_Is (fmt_wrapError msg e) target.

(** ** Attributes (package [attribute]) *)

Inductive attribute_Value : Type :=
| INVALID
| BOOL (b : bool)
| INT64 (i : Z)
| STRING (s : string)
| BOOLSLICE (bs : list bool)
| INT64SLICE (zs : list Z)
| STRINGSLICE (ss : list string).

Record attribute_KeyValue : Type := {
  Key : string;
  Value : attribute_Value
}.

Definition attribute_String (k v : string) : attribute_KeyValue :=
  {| Key := k; Value := STRING v |}.

(** [semconv.ServiceNameKey] and [semconv.ServiceVersionKey] (v1.12.0). *)
Definition semconv_ServiceNameKey : string := "service.name".
Definition semconv_ServiceVersionKey : string := "service.version".

(** ** Contexts and durations *)

Definition SpanID := nat.

(** A [context.Context]: its deadline, if any, and the span it carries. *)
Record Context : Type := {
  ctx_deadline : option Z;
  ctx_span : option SpanID
}.

Definition context_Background : Context :=
  {| ctx_deadline := None; ctx_span := None |}.

(** [time.Duration] counts nanoseconds in an int64. *)
Definition Duration := Z.
Definition time_Millisecond : Duration := 1000000%Z.
Definition time_Second : Duration := 1000000000%Z.

(** ** SDK objects, named by how they were asked for *)

Inductive Sampler : Type :=
| AlwaysSample
| NeverSample
| ParentBased (root : Sampler)
| CustomSampler (description : string).

Record Resource : Type := {
  res_attributes : list attribute_KeyValue;
  res_schemaURL : string
}.

Inductive resource_Option : Type :=
| resource_WithAttributes (attrs : list attribute_KeyValue)
| resource_WithProcessRuntimeDescription
| resource_WithTelemetrySDK.

Inductive grpc_DialOption : Type :=
| grpc_WithBlock
| grpc_WithTransportCredentials (creds : string).

Inductive otlptracegrpc_Option : Type :=
| otlptracegrpc_WithInsecure
| otlptracegrpc_WithTLSCredentials (creds : string)
| otlptracegrpc_WithEndpoint (endpoint : string)
| otlptracegrpc_WithDialOption (opt : grpc_DialOption).

(** The client [otlptracegrpc.NewClient] returns for an option list. *)
Record Client : Type := { client_options : list otlptracegrpc_Option }.

Record Exporter : Type := { exp_client : Client }.

(** [sdktrace.NewBatchSpanProcessor(exporter)]. *)
Record BatchSpanProcessor : Type := { bsp_exporter : option Exporter }.

Inductive TracerProviderOption : Type :=
| sdktrace_WithSampler (s : option Sampler)
| sdktrace_WithResource (r : option Resource)
| sdktrace_WithSpanProcessor (sp : BatchSpanProcessor).

(** A [*sdktrace.TracerProvider]: the allocation it lives in and the
    options it was built with. *)
Record TracerProvider : Type := {
  tp_ref : nat;
  tp_options : list TracerProviderOption
}.

(** A [trace.Tracer]: the provider it was obtained from and the name it
    was asked for. *)
Record Tracer : Type := {
  tracer_provider : TracerProvider;
  tracer_name : string
}.

Definition TracerProvider_Tracer (tp : TracerProvider) (name : string) : Tracer :=
  {| tracer_provider := tp; tracer_name := name |}.

Inductive TextMapPropagator : Type :=
| propagation_TraceContext
| propagation_Baggage
| propagation_Composite (ps : list TextMapPropagator).

Definition propagation_NewCompositeTextMapPropagator
    (ps : list TextMapPropagator) : TextMapPropagator :=
  propagation_Composite ps.

(** ** The process: globals of package [otel] and the log of SDK calls *)

Record Globals : Type := {
  global_tracerProvider : option TracerProvider;
  global_propagator : option TextMapPropagator;
  global_meterProvider : option nat;
  global_errorHandler : option nat
}.

Inductive Call : Type :=
| Call_resource_New (ctx : Context) (opts : list resource_Option)
| Call_otlptracegrpc_NewClient (opts : list otlptracegrpc_Option)
| Call_otlptrace_New (ctx : Context) (client : Client)
| Call_NewBatchSpanProcessor (e : option Exporter)
| Call_NewTracerProvider (opts : list TracerProviderOption)
| Call_SetTracerProvider (tp : TracerProvider)
| Call_SetTextMapPropagator (p : TextMapPropagator)
| Call_Tracer_Start (t : Tracer) (ctx : Context) (name : string) (span : SpanID)
| Call_Span_SetAttributes (span : SpanID) (attrs : list attribute_KeyValue)
| Call_Span_End (span : SpanID)
| Call_time_Sleep (d : Duration)
| Call_Fprintln (line : string).

Record World : Type := {
  globals : Globals;
  calls : list Call;
  next_ref : nat
}.

Definition M := state World.

Definition log (c : Call) : M unit :=
  w <- get ;;
  put {| globals := globals w; calls := calls w ++ [c]; next_ref := next_ref w |}.

Definition fresh : M nat :=
  w <- get ;;
  put {| globals := globals w; calls := calls w; next_ref := S (next_ref w) |} ;;
  ret (next_ref w).

Definition set_globals (f : Globals -> Globals) : M unit :=
  w <- get ;;
  put {| globals := f (globals w); calls := calls w; next_ref := next_ref w |}.

(** The calls made between two worlds of one run. *)
Definition calls_since (w w' : World) : list Call :=
  skipn (length (calls w)) (calls w').

(** ** Package [pkg] *)

Record Config : Type := {
  ServiceName : string;
  ServiceVersion : string;
  Environment : string;
  OtelEndpoint : string;
  Attributes : list attribute_KeyValue;
  Sampler_ : option Sampler;
  Timeout : Duration
}.

Definition DefaultConfig : Config :=
  {| ServiceName := "unknown-service";
     ServiceVersion := "0.0.1";
     Environment := "development";
     OtelEndpoint := "localhost:4317";
     Attributes := [];
     Sampler_ := Some AlwaysSample;
     Timeout := (5 * time_Second)%Z |}.

Record Provider : Type := {
  tracerProvider : option TracerProvider;
  config : Config
}.

(** What a Go call that may dereference nil comes to. *)
Inductive outcome (A : Type) : Type :=
| Returns (a : A)
| Panics (msg : string).
Arguments Returns {A} a.
Arguments Panics {A} msg.

Definition nil_dereference : string :=
  "invalid memory address or nil pointer dereference".

Definition GetTracer (p : option Provider) (name : string) : outcome Tracer :=
  match p with
  | None => Panics nil_dereference
  | Some p =>
      match tracerProvider p with
      | None => Panics nil_dereference
      | Some tp => Returns (TracerProvider_Tracer tp name)
      end
  end.

Definition GetTracerProvider (p : option Provider) : outcome (option TracerProvider) :=
  match p with
  | None => Panics nil_dereference
  | Some p => Returns (tracerProvider p)
  end.

Section Initializer.

(** The two SDK constructors that can fail.  Each returns a Go pair
    (pointer, error); the package looks at the error only. *)
Variable resource_New :
  Context -> list resource_Option -> option Resource * option error.
Variable otlptrace_New :
  Context -> Client -> option Exporter * option error.

Definition call_resource_New (ctx : Context) (opts : list resource_Option)
    : M (option Resource * option error) :=
  log (Call_resource_New ctx opts) ;;
  ret (resource_New ctx opts).

Definition otlptracegrpc_NewClient (opts : list otlptracegrpc_Option) : M Client :=
  log (Call_otlptracegrpc_NewClient opts) ;;
  ret {| client_options := opts |}.

Definition call_otlptrace_New (ctx : Context) (client : Client)
    : M (option Exporter * option error) :=
  log (Call_otlptrace_New ctx client) ;;
  ret (otlptrace_New ctx client).

Definition sdktrace_NewBatchSpanProcessor (e : option Exporter)
    : M BatchSpanProcessor :=
  log (Call_NewBatchSpanProcessor e) ;;
  ret {| bsp_exporter := e |}.

Definition sdktrace_NewTracerProvider (opts : list TracerProviderOption)
    : M TracerProvider :=
  r <- fresh ;;
  log (Call_NewTracerProvider opts) ;;
  ret {| tp_ref := r; tp_options := opts |}.

Definition otel_SetTracerProvider (tp : TracerProvider) : M unit :=
  log (Call_SetTracerProvider tp) ;;
  set_globals (fun g =>
    {| global_tracerProvider := Some tp;
       global_propagator := global_propagator g;
       global_meterProvider := global_meterProvider g;
       global_errorHandler := global_errorHandler g |}).

Definition otel_SetTextMapPropagator (p : TextMapPropagator) : M unit :=
  log (Call_SetTextMapPropagator p) ;;
  set_globals (fun g =>
    {| global_tracerProvider := global_tracerProvider g;
       global_propagator := Some p;
       global_meterProvider := global_meterProvider g;
       global_errorHandler := global_errorHandler g |}).

Definition InitProvider (ctx : Context) (cfg : Config)
    : M (option Provider * option error) :=
  let attrs :=
    [ attribute_String semconv_ServiceNameKey (ServiceName cfg);
      attribute_String semconv_ServiceVersionKey (ServiceVersion cfg);
      attribute_String "environment" (Environment cfg) ] in
  let attrs := (attrs ++ Attributes cfg)%list in
  '(res, err) <- call_resource_New ctx
                   [ resource_WithAttributes attrs;
                     resource_WithProcessRuntimeDescription;
                     resource_WithTelemetrySDK ] ;;
  match err with
  | Some err => ret (None, Some (fmt_Errorf_w "failed to create resource: " err))
  | None =>
      let secureOption := otlptracegrpc_WithInsecure in
      client <- otlptracegrpc_NewClient
                  [ secureOption;
                    otlptracegrpc_WithEndpoint (OtelEndpoint cfg);
                    otlptracegrpc_WithDialOption grpc_WithBlock ] ;;
      '(traceExporter, err) <- call_otlptrace_New ctx client ;;
      match err with
      | Some err =>
          ret (None, Some (fmt_Errorf_w "failed to create trace exporter: " err))
      | None =>
          bsp <- sdktrace_NewBatchSpanProcessor traceExporter ;;
          tracerProvider <- sdktrace_NewTracerProvider
                              [ sdktrace_WithSampler (Sampler_ cfg);
                                sdktrace_WithResource res;
                                sdktrace_WithSpanProcessor bsp ] ;;
          otel_SetTracerProvider tracerProvider ;;
          otel_SetTextMapPropagator
            (propagation_NewCompositeTextMapPropagator
               [ propagation_TraceContext; propagation_Baggage ]) ;;
          ret (Some {| tracerProvider := Some tracerProvider; config := cfg |},
               None)
      end
  end.

End Initializer.

(** ** The demonstration entry point (package [main]) *)

(** [url.Values]: the parsed query of a request. *)
Definition Values := list (string * list string).

Fixpoint Values_Get (v : Values) (key : string) : string :=
  match v with
  | [] => ""
  | (k, vs) :: rest =>
      if String.eqb k key then hd "" vs else Values_Get rest key
  end.

Record URL : Type := {
  Path : string;
  Query : Values
}.

Record Request : Type := {
  Method : string;
  RequestURL : URL;
  req_Context : Context
}.

(** An [http.ResponseWriter]: what writing a line to it reports. *)
Record ResponseWriter : Type := {
  rw_Write : string -> option error
}.

Record TracerMiddleware : Type := {
  Tracer_ : Tracer
}.

Definition NewTracerMiddleware (provider : option Provider) (tracerName : string)
    : outcome TracerMiddleware :=
  match GetTracer provider tracerName with
  | Returns t => Returns {| Tracer_ := t |}
  | Panics msg => Panics msg
  end.

(** [tracer.Start(ctx, name)]: a new span, child of the one [ctx] carries,
    and the context that carries the new span. *)
Definition Tracer_Start (t : Tracer) (ctx : Context) (name : string)
    : M (Context * SpanID) :=
  span <- fresh ;;
  log (Call_Tracer_Start t ctx name span) ;;
  ret ({| ctx_deadline := ctx_deadline ctx; ctx_span := Some span |}, span).

Definition Span_SetAttributes (span : SpanID) (attrs : list attribute_KeyValue)
    : M unit :=
  log (Call_Span_SetAttributes span attrs).

Definition Span_End (span : SpanID) : M unit := log (Call_Span_End span).

Definition time_Sleep (d : Duration) : M unit := log (Call_time_Sleep d).

Definition fmt_Fprintln (w : ResponseWriter) (line : string) : M (option error) :=
  log (Call_Fprintln line) ;;
  ret (rw_Write w line).

Definition exampleHandler (middleware : TracerMiddleware)
    (w : ResponseWriter) (r : Request) : M unit :=
  '(ctx, span) <- Tracer_Start (Tracer_ middleware) (req_Context r)
                    "process-user-request" ;;
  (* defer span.End() *)
  Span_SetAttributes span
    [ attribute_String "user.id" (Values_Get (Query (RequestURL r)) "id");
      attribute_String "request.type" "user-info" ] ;;
  '(childCtx, childSpan) <- Tracer_Start (Tracer_ middleware) ctx "database-query" ;;
  time_Sleep (200 * time_Millisecond)%Z ;;
  Span_End childSpan ;;
  '(_, anotherSpan) <- Tracer_Start (Tracer_ middleware) ctx "process-user-data" ;;
  time_Sleep (150 * time_Millisecond)%Z ;;
  Span_End anotherSpan ;;
  _ <- fmt_Fprintln w "Processamento de usuário concluído com rastreamento!" ;;
  (* the deferred call *)
  Span_End span.

(** ** Reading the log *)

Definition is_global_write (c : Call) : bool :=
  match c with
  | Call_SetTracerProvider _ | Call_SetTextMapPropagator _ => true
  | _ => false
  end.

Definition global_writes (cs : list Call) : list Call := filter is_global_write cs.

Fixpoint resource_requests (cs : list Call) : list (list resource_Option) :=
  match cs with
  | [] => []
  | Call_resource_New _ opts :: rest => opts :: resource_requests rest
  | _ :: rest => resource_requests rest
  end.

Fixpoint requested_attributes (opts : list resource_Option)
    : list attribute_KeyValue :=
  match opts with
  | [] => []
  | resource_WithAttributes attrs :: rest => (attrs ++ requested_attributes rest)%list
  | _ :: rest => requested_attributes rest
  end.

Fixpoint client_requests (cs : list Call) : list (list otlptracegrpc_Option) :=
  match cs with
  | [] => []
  | Call_otlptracegrpc_NewClient opts :: rest => opts :: client_requests rest
  | _ :: rest => client_requests rest
  end.

Definition asks_insecure (o : otlptracegrpc_Option) : bool :=
  match o with otlptracegrpc_WithInsecure => true | _ => false end.

Definition asks_credentials (o : otlptracegrpc_Option) : bool :=
  match o with
  | otlptracegrpc_WithTLSCredentials _ => true
  | otlptracegrpc_WithDialOption (grpc_WithTransportCredentials _) => true
  | _ => false
  end.

(** A client request is for plaintext transport when it carries
    [WithInsecure] and no option supplying credentials. *)
Definition plaintext_request (opts : list otlptracegrpc_Option) : bool :=
  existsb asks_insecure opts && negb (existsb asks_credentials opts).

(** The values carried by the attributes with a given key. *)
Definition labels (key : string) (attrs : list attribute_KeyValue)
    : list attribute_Value :=
  map Value (filter (fun kv => String.eqb (Key kv) key) attrs).

(** ** Test doubles for the SDK *)

Definition empty_globals : Globals :=
  {| global_tracerProvider := None; global_propagator := None;
     global_meterProvider := None; global_errorHandler := None |}.

Definition w0 : World := {| globals := empty_globals; calls := []; next_ref := 0 |}.

Definition ok_resource (ctx : Context) (opts : list resource_Option)
    : option Resource * option error :=
  (Some {| res_attributes := requested_attributes opts; res_schemaURL := "" |}, None).

Definition bad_resource (ctx : Context) (opts : list resource_Option)
    : option Resource * option error :=
  (None, Some (errors_New "invalid attribute")).

Definition ok_exporter (ctx : Context) (c : Client)
    : option Exporter * option error :=
  (Some {| exp_client := c |}, None).

Definition bad_exporter (ctx : Context) (c : Client)
    : option Exporter * option error :=
  (None, Some (errors_New "context deadline exceeded")).

(** ** What one run of [InitProvider] does

    The requests named here are read off the body of [InitProvider];
    [InitProvider_run] checks them against it. *)

Definition builtin_attributes (cfg : Config) : list attribute_KeyValue :=
  [ attribute_String semconv_ServiceNameKey (ServiceName cfg);
    attribute_String semconv_ServiceVersionKey (ServiceVersion cfg);
    attribute_String "environment" (Environment cfg) ].

Definition resource_request (cfg : Config) : list resource_Option :=
  [ resource_WithAttributes (builtin_attributes cfg ++ Attributes cfg)%list;
    resource_WithProcessRuntimeDescription;
    resource_WithTelemetrySDK ].

Definition client_request (cfg : Config) : list otlptracegrpc_Option :=
  [ otlptracegrpc_WithInsecure;
    otlptracegrpc_WithEndpoint (OtelEndpoint cfg);
    otlptracegrpc_WithDialOption grpc_WithBlock ].

Definition composite_propagator : TextMapPropagator :=
  propagation_Composite [ propagation_TraceContext; propagation_Baggage ].

Definition built_provider (cfg : Config) (res : option Resource)
    (e : option Exporter) (ref : nat) : TracerProvider :=
  {| tp_ref := ref;
     tp_options := [ sdktrace_WithSampler (Sampler_ cfg);
                     sdktrace_WithResource res;
                     sdktrace_WithSpanProcessor {| bsp_exporter := e |} ] |}.

Definition add_calls (w : World) (cs : list Call) : World :=
  {| globals := globals w; calls := (calls w ++ cs)%list; next_ref := next_ref w |}.

Section Stages.

Variable resource_New :
  Context -> list resource_Option -> option Resource * option error.
Variable otlptrace_New :
  Context -> Client -> option Exporter * option error.

(** The outcome of each construction stage for a configuration. *)
Definition resource_stage (ctx : Context) (cfg : Config) :=
  resource_New ctx (resource_request cfg).
Definition exporter_stage (ctx : Context) (cfg : Config) :=
  otlptrace_New ctx {| client_options := client_request cfg |}.

Definition resource_fails (ctx : Context) (cfg : Config) : Prop :=
  exists cause, snd (resource_stage ctx cfg) = Some cause.
Definition exporter_fails (ctx : Context) (cfg : Config) : Prop :=
  exists cause, snd (exporter_stage ctx cfg) = Some cause.

End Stages.

Definition resource_attributes_of (cs : list Call) : list attribute_KeyValue :=
  concat (map requested_attributes (resource_requests cs)).

(** The resource is labelled with a default service name: the only
    service-name label asked for is some non-empty string. *)
Definition labelled_with_default (cs : list Call) : Prop :=
  exists d, d <> "" /\
    labels semconv_ServiceNameKey (resource_attributes_of cs) = [STRING d].

(** The reading of the sentence on empty service names: the run is
    accepted and its resource is labelled with a default. *)
Definition accepts_and_defaults
    (resource_New : Context -> list resource_Option -> option Resource * option error)
    (otlptrace_New : Context -> Client -> option Exporter * option error)
    (ctx : Context) (cfg : Config) (w : World) : Prop :=
  snd (evalState (InitProvider resource_New otlptrace_New ctx cfg) w) = None /\
  labelled_with_default
    (calls_since w (execState (InitProvider resource_New otlptrace_New ctx cfg) w)).

(** A log that opens with a span named after the request's method and
    target, and in which some span is given the method as an attribute. *)
Definition span_named_after_request (cs : list Call) (r : Request) : Prop :=
  exists t ctx target span,
    hd_error cs =
      Some (Call_Tracer_Start t ctx (Method r ++ " " ++ target) span).

Definition span_has_method_attribute (cs : list Call) (r : Request) : Prop :=
  exists span attrs key,
    In (Call_Span_SetAttributes span attrs) cs /\
    In (attribute_String key (Method r)) attrs.

Definition wraps_request (cs : list Call) (r : Request) : Prop :=
  span_named_after_request cs r /\ span_has_method_attribute cs r.

(** ** Concrete inputs *)

(** The configuration [main] builds. *)
Definition main_config : Config :=
  {| ServiceName := "exemplo-servico";
     ServiceVersion := "1.0.0";
     Environment := "production";
     OtelEndpoint := "otel-collector:4317";
     Attributes := [ attribute_String "deployment.region" "br-south" ];
     Sampler_ := Sampler_ DefaultConfig;
     Timeout := Timeout DefaultConfig |}.

Definition unnamed_config : Config :=
  {| ServiceName := "";
     ServiceVersion := ServiceVersion DefaultConfig;
     Environment := Environment DefaultConfig;
     OtelEndpoint := OtelEndpoint DefaultConfig;
     Attributes := Attributes DefaultConfig;
     Sampler_ := Sampler_ DefaultConfig;
     Timeout := Timeout DefaultConfig |}.

(** A process in which an earlier provider is already installed. *)
Definition earlier_provider : TracerProvider :=
  {| tp_ref := 0; tp_options := [ sdktrace_WithSampler (Some NeverSample) ] |}.

Definition w1 : World :=
  {| globals := {| global_tracerProvider := Some earlier_provider;
                   global_propagator := Some propagation_TraceContext;
                   global_meterProvider := Some 7;
                   global_errorHandler := None |};
     calls := [ Call_NewTracerProvider (tp_options earlier_provider);
                Call_SetTracerProvider earlier_provider ];
     next_ref := 1 |}.

(** The runs used as examples, evaluated once. *)
Definition main_run : option Provider * option error * World :=
  Eval vm_compute in
    runState (InitProvider ok_resource ok_exporter context_Background
                main_config) w0.

Definition main_provider : option Provider := fst (fst main_run).
Definition main_world : World := snd main_run.

Definition reinstall_run : option Provider * option error * World :=
  Eval vm_compute in
    runState (InitProvider ok_resource ok_exporter context_Background
                main_config) w1.

Definition unreachable_run : option Provider * option error * World :=
  Eval vm_compute in
    runState (InitProvider ok_resource bad_exporter context_Background
                main_config) w1.

Definition invalid_run : option Provider * option error * World :=
  Eval vm_compute in
    runState (InitProvider bad_resource ok_exporter context_Background
                main_config) w0.

Definition unnamed_run : option Provider * option error * World :=
  Eval vm_compute in
    runState (InitProvider ok_resource ok_exporter context_Background
                unnamed_config) w0.

Definition users_request : Request :=
  {| Method := "GET";
     RequestURL := {| Path := "/api/users"; Query := [ ("id", [ "42" ]) ] |};
     req_Context := context_Background |}.

Definition good_writer : ResponseWriter := {| rw_Write := fun _ => None |}.
Definition broken_writer : ResponseWriter :=
  {| rw_Write := fun _ => Some (errors_New "broken pipe") |}.

(** ** Further code of the two files *)

(** The handler [main] registers for [/manual-trace].  It closes over
    the handle [main] got from [InitProvider] and asks it for a tracer on
    every request. *)
Definition manualTraceHandler (provider : option Provider)
    (w : ResponseWriter) (r : Request) : M (outcome unit) :=
  match GetTracer provider "manual-example" with
  | Panics msg => ret (Panics msg)
  | Returns tracer =>
      '(_, span) <- Tracer_Start tracer (req_Context r) "manual-operation" ;;
      (* defer span.End() *)
      Span_SetAttributes span [ attribute_String "example.key" "example-value" ] ;;
      time_Sleep (100 * time_Millisecond)%Z ;;
      _ <- fmt_Fprintln w "Operação com trace manual completada!" ;;
      (* the deferred call *)
      Span_End span ;;
      ret (Returns tt)
  end.

(** The assignment [config.Timeout = t]. *)
Definition set_Timeout (cfg : Config) (t : Duration) : Config :=
  {| ServiceName := ServiceName cfg;
     ServiceVersion := ServiceVersion cfg;
     Environment := Environment cfg;
     OtelEndpoint := OtelEndpoint cfg;
     Attributes := Attributes cfg;
     Sampler_ := Sampler_ cfg;
     Timeout := t |}.

(** *** More readers of the log *)

(** The exporter constructions of a log: context and client of each. *)
Fixpoint exporter_dials (cs : list Call) : list (Context * Client) :=
  match cs with
  | [] => []
  | Call_otlptrace_New ctx client :: rest => (ctx, client) :: exporter_dials rest
  | _ :: rest => exporter_dials rest
  end.

(** The contexts handed to the two constructors that take one. *)
Fixpoint constructor_contexts (cs : list Call) : list Context :=
  match cs with
  | [] => []
  | Call_resource_New ctx _ :: rest => ctx :: constructor_contexts rest
  | Call_otlptrace_New ctx _ :: rest => ctx :: constructor_contexts rest
  | _ :: rest => constructor_contexts rest
  end.

(** The spans a log starts: name, identifier and parent of each. *)
Fixpoint started_spans (cs : list Call)
    : list (string * SpanID * option SpanID) :=
  match cs with
  | [] => []
  | Call_Tracer_Start _ ctx name span :: rest =>
      (name, span, ctx_span ctx) :: started_spans rest
  | _ :: rest => started_spans rest
  end.

(** The tracers a log starts spans with. *)
Fixpoint span_tracers (cs : list Call) : list Tracer :=
  match cs with
  | [] => []
  | Call_Tracer_Start t _ _ _ :: rest => t :: span_tracers rest
  | _ :: rest => span_tracers rest
  end.

(** The discipline of spans along a log, from a stack of open spans: a
    start pushes its span, an end must name the innermost open span and
    pops it, attributes go to a span that is still open.  [None] when the
    log breaks the discipline. *)
Fixpoint span_stack (cs : list Call) (opened : list SpanID)
    : option (list SpanID) :=
  match cs with
  | [] => Some opened
  | Call_Tracer_Start _ _ _ span :: rest => span_stack rest (span :: opened)
  | Call_Span_End span :: rest =>
      match opened with
      | top :: below =>
          if Nat.eqb span top then span_stack rest below else None
      | [] => None
      end
  | Call_Span_SetAttributes span _ :: rest =>
      if existsb (Nat.eqb span) opened then span_stack rest opened else None
  | _ :: rest => span_stack rest opened
  end.

(** Every span started is ended, innermost first, and none is left open. *)
Definition well_nested (cs : list Call) : bool :=
  match span_stack cs [] with
  | Some [] => true
  | _ => false
  end.

(** *** More concrete inputs *)

Definition health_request : Request :=
  {| Method := "POST";
     RequestURL := {| Path := "/api/users"; Query := [ ("page", [ "2" ]) ] |};
     req_Context := {| ctx_deadline := Some 30%Z; ctx_span := None |} |}.

(** The same context and [id] as [users_request], all else different. *)
Definition people_request : Request :=
  {| Method := "DELETE";
     RequestURL := {| Path := "/v2/people";
                      Query := [ ("verbose", [ "1" ]); ("id", [ "42"; "43" ]) ] |};
     req_Context := context_Background |}.

Definition earlier_handle : Provider :=
  {| tracerProvider := Some earlier_provider; config := DefaultConfig |}.

(** A second initialisation in the process [main] has set up. *)
Definition second_run : option Provider * option error * World :=
  Eval vm_compute in
    runState (InitProvider ok_resource ok_exporter context_Background
                unnamed_config) main_world.

Lemma calls_since_app (w w' : World) (cs : list Call) :
  calls w' = (calls w ++ cs)%list -> calls_since w w' = cs.
Proof.
  unfold calls_since. intros ->.
  induction (calls w) as [|c l IH]; simpl; [reflexivity | exact IH].
Qed.

Section Run.

Variable resource_New :
  Context -> list resource_Option -> option Resource * option error.
Variable otlptrace_New :
  Context -> Client -> option Exporter * option error.


Lemma InitProvider_run ctx cfg w :
  runState (InitProvider resource_New otlptrace_New ctx cfg) w =
  match resource_stage resource_New ctx cfg with
  | (_, Some cause) =>
      (None, Some (fmt_Errorf_w "failed to create resource: " cause),
       add_calls w [Call_resource_New ctx (resource_request cfg)])
  | (res, None) =>
      match exporter_stage otlptrace_New ctx cfg with
      | (_, Some cause) =>
          (None, Some (fmt_Errorf_w "failed to create trace exporter: " cause),
           add_calls w
             [ Call_resource_New ctx (resource_request cfg);
               Call_otlptracegrpc_NewClient (client_request cfg);
               Call_otlptrace_New ctx {| client_options := client_request cfg |} ])
      | (e, None) =>
          let tp := built_provider cfg res e (next_ref w) in
          (Some {| tracerProvider := Some tp; config := cfg |}, None,
           {| globals :=
                {| global_tracerProvider := Some tp;
                   global_propagator := Some composite_propagator;
                   global_meterProvider := global_meterProvider (globals w);
                   global_errorHandler := global_errorHandler (globals w) |};
              calls :=
                (calls w ++
                 [ Call_resource_New ctx (resource_request cfg);
                   Call_otlptracegrpc_NewClient (client_request cfg);
                   Call_otlptrace_New ctx {| client_options := client_request cfg |};
                   Call_NewBatchSpanProcessor e;
                   Call_NewTracerProvider (tp_options tp);
                   Call_SetTracerProvider tp;
                   Call_SetTextMapPropagator composite_propagator ])%list;
              next_ref := S (next_ref w) |})
      end
  end.
Proof.
  unfold resource_stage, exporter_stage, resource_request, client_request,
    builtin_attributes, add_calls, built_provider, composite_propagator,
    InitProvider.
  cbn.
  destruct (resource_New ctx _) as [res [cause|]]; cbn.
  - reflexivity.
  - destruct (otlptrace_New ctx _) as [e [cause|]]; cbn;
      rewrite <- !app_assoc; reflexivity.
Qed.

(** The log of one run, stage by stage. *)
Lemma InitProvider_calls ctx cfg w :
  calls_since w (execState (InitProvider resource_New otlptrace_New ctx cfg) w) =
  (Call_resource_New ctx (resource_request cfg) ::
   match resource_stage resource_New ctx cfg with
   | (_, Some _) => []
   | (res, None) =>
       Call_otlptracegrpc_NewClient (client_request cfg) ::
       Call_otlptrace_New ctx {| client_options := client_request cfg |} ::
       match exporter_stage otlptrace_New ctx cfg with
       | (_, Some _) => []
       | (e, None) =>
           let tp := built_provider cfg res e (next_ref w) in
           [ Call_NewBatchSpanProcessor e;
             Call_NewTracerProvider (tp_options tp);
             Call_SetTracerProvider tp;
             Call_SetTextMapPropagator composite_propagator ]
       end
   end)%list.
Proof.
  unfold execState. rewrite InitProvider_run.
  destruct (resource_stage resource_New ctx cfg) as [res [c1|]];
    [| destruct (exporter_stage otlptrace_New ctx cfg) as [e [c2|]]];
    apply calls_since_app; reflexivity.
Qed.

Ltac run_init H :=
  rewrite InitProvider_run in H;
  let Hr := fresh "Hres" in
  let He := fresh "Hexp" in
  destruct (resource_stage _ _ _) as [?res [?cause|]] eqn:Hr;
    [| destruct (exporter_stage _ _ _) as [?e [?cause|]] eqn:He];
    inversion H; subst; clear H.

(** C1.  When the resource stage or the exporter stage fails,
    [InitProvider] returns a nil handle with an error, leaves the
    globals of package [otel] as they were and makes no installing
    call; a handle (with a non-nil tracer provider) is returned exactly
    when neither stage fails. *)
Theorem InitProvider_failure_installs_nothing ctx cfg w p e w' :
  runState (InitProvider resource_New otlptrace_New ctx cfg) w = (p, e, w') ->
  ((resource_fails resource_New ctx cfg \/ exporter_fails otlptrace_New ctx cfg) ->
     p = None /\ (exists err, e = Some err) /\
     globals w' = globals w /\ global_writes (calls_since w w') = []) /\
  ((exists prov tp, p = Some prov /\ tracerProvider prov = Some tp) <->
     ~ resource_fails resource_New ctx cfg /\ ~ exporter_fails otlptrace_New ctx cfg).
Proof.
  intros H. unfold resource_fails, exporter_fails.
  run_init H.
  - split.
    + intros _. repeat split; eauto.
      erewrite calls_since_app by reflexivity. reflexivity.
    + split.
      * intros (prov & tp & Hp & _). discriminate Hp.
      * intros [Hn _]. exfalso. apply Hn. simpl. eauto.
  - split.
    + intros _. repeat split; eauto.
      erewrite calls_since_app by reflexivity. reflexivity.
    + split.
      * intros (prov & tp & Hp & _). discriminate Hp.
      * intros [_ Hn]. exfalso. apply Hn. simpl. eauto.
  - split.
    + intros [[c Hc] | [c Hc]]; simpl in Hc; discriminate Hc.
    + split.
      * intros _. split; intros [c Hc]; simpl in Hc; discriminate Hc.
      * intros _. eexists. eexists. split; reflexivity.
Qed.


(** C4.  A successful run writes two globals and nothing else: the
    provider it has just built (the one in the returned handle) becomes
    the global tracer provider, the composite of trace-context and
    baggage becomes the global propagator, in that order, and the other
    globals keep their values. *)
Theorem InitProvider_success_installs_two ctx cfg w prov e w' :
  runState (InitProvider resource_New otlptrace_New ctx cfg) w = (Some prov, e, w') ->
  exists tp,
    tracerProvider prov = Some tp /\
    tp_ref tp = next_ref w /\
    In (Call_NewTracerProvider (tp_options tp)) (calls_since w w') /\
    global_writes (calls_since w w') =
      [ Call_SetTracerProvider tp;
        Call_SetTextMapPropagator
          (propagation_Composite [ propagation_TraceContext; propagation_Baggage ]) ] /\
    globals w' =
      {| global_tracerProvider := Some tp;
         global_propagator :=
           Some (propagation_Composite
                   [ propagation_TraceContext; propagation_Baggage ]);
         global_meterProvider := global_meterProvider (globals w);
         global_errorHandler := global_errorHandler (globals w) |}.
Proof.
  intros H. run_init H.
  eexists. split; [reflexivity |]. split; [reflexivity |].
  erewrite calls_since_app by reflexivity.
  split; [simpl; auto 8 |]. split; reflexivity.
Qed.

(** C5.  An error returned by [InitProvider] wraps the error of the
    stage that failed: its message is the stage's prefix followed by
    the cause's message, and unwrapping it gives the cause back. *)
Theorem InitProvider_error_names_stage ctx cfg w p err w' :
  runState (InitProvider resource_New otlptrace_New ctx cfg) w = (p, Some err, w') ->
  (exists cause,
      snd (resource_stage resource_New ctx cfg) = Some cause /\
      Error err = "failed to create resource: " ++ Error cause /\
      Unwrap err = Some cause /\ errors_Is err cause)
  \/
  (snd (resource_stage resource_New ctx cfg) = None /\
   exists cause,
      snd (exporter_stage otlptrace_New ctx cfg) = Some cause /\
      Error err = "failed to create trace exporter: " ++ Error cause /\
      Unwrap err = Some cause /\ errors_Is err cause).
Proof.
  intros H. run_init H.
  - left. exists cause. repeat split.
    apply errors_Is_wrapped, errors_Is_here.
  - right. split; [reflexivity |]. exists cause. repeat split.
    apply errors_Is_wrapped, errors_Is_here.
Qed.

(** C10.  In the attribute list of the resource request the three
    built-in attributes come first, in the order service name, service
    version, environment, and the caller's attributes follow in their
    own order: the caller's i-th attribute sits at position 3 + i, so
    behind every built-in one whatever its key. *)
Theorem InitProvider_attribute_order ctx cfg w :
  exists attrs,
    hd_error
      (calls_since w (execState (InitProvider resource_New otlptrace_New ctx cfg) w)) =
      Some (Call_resource_New ctx
              [ resource_WithAttributes attrs;
                resource_WithProcessRuntimeDescription;
                resource_WithTelemetrySDK ]) /\
    firstn 3 attrs =
      [ attribute_String "service.name" (ServiceName cfg);
        attribute_String "service.version" (ServiceVersion cfg);
        attribute_String "environment" (Environment cfg) ] /\
    skipn 3 attrs = Attributes cfg /\
    (forall i, nth_error attrs (3 + i) = nth_error (Attributes cfg) i).
Proof.
  rewrite InitProvider_calls.
  exists (builtin_attributes cfg ++ Attributes cfg)%list.
  repeat split.
Qed.

(** C7.  Every client [InitProvider] constructs is asked for with
    [WithInsecure] and with no option that supplies credentials; the
    request is the same three options for every configuration, of which
    only the endpoint comes from the configuration, and it is made once
    whenever the resource stage succeeds. *)
Theorem InitProvider_client_is_plaintext ctx cfg w :
  forallb plaintext_request
    (client_requests
       (calls_since w (execState (InitProvider resource_New otlptrace_New ctx cfg) w)))
    = true /\
  client_requests
    (calls_since w (execState (InitProvider resource_New otlptrace_New ctx cfg) w)) =
    match snd (resource_stage resource_New ctx cfg) with
    | Some _ => []
    | None =>
        [ [ otlptracegrpc_WithInsecure;
            otlptracegrpc_WithEndpoint (OtelEndpoint cfg);
            otlptracegrpc_WithDialOption grpc_WithBlock ] ]
    end.
Proof.
  rewrite InitProvider_calls.
  destruct (resource_stage resource_New ctx cfg) as [res [c1|]];
    [| destruct (exporter_stage otlptrace_New ctx cfg) as [e [c2|]]];
    split; reflexivity.
Qed.

(** C8.  On the handle of a successful run, [GetTracer] returns for
    every name: it yields the tracer of the installed provider for that
    name, and whatever a second call with the same name returns starts
    spans exactly as the first does. *)
Theorem GetTracer_never_fails ctx cfg w prov e w' name :
  runState (InitProvider resource_New otlptrace_New ctx cfg) w = (Some prov, e, w') ->
  exists t,
    GetTracer (Some prov) name = Returns t /\
    tracer_name t = name /\
    tracerProvider prov = Some (tracer_provider t) /\
    global_tracerProvider (globals w') = Some (tracer_provider t) /\
    (forall t', GetTracer (Some prov) name = Returns t' ->
       forall c n s,
         runState (Tracer_Start t' c n) s = runState (Tracer_Start t c n) s).
Proof.
  intros H. run_init H.
  eexists. split; [reflexivity |]. repeat split.
  intros t' Ht'. simpl in Ht'. injection Ht' as <-. reflexivity.
Qed.

(** C6, as the code has it.  A configuration with an empty service
    name is not rejected: the run fails only when a construction stage
    fails.  The resource is asked for with the service-name attribute
    set to the empty string, first in the list; no default is put in
    its place. *)
Theorem InitProvider_accepts_empty_service_name ctx cfg w :
  ServiceName cfg = "" ->
  (snd (evalState (InitProvider resource_New otlptrace_New ctx cfg) w) = None <->
     ~ resource_fails resource_New ctx cfg /\ ~ exporter_fails otlptrace_New ctx cfg) /\
  exists attrs,
    hd_error
      (calls_since w (execState (InitProvider resource_New otlptrace_New ctx cfg) w)) =
      Some (Call_resource_New ctx
              [ resource_WithAttributes attrs;
                resource_WithProcessRuntimeDescription;
                resource_WithTelemetrySDK ]) /\
    hd_error attrs = Some (attribute_String "service.name" "") /\
    labels "service.name" attrs =
      STRING "" :: labels "service.name" (Attributes cfg).
Proof.
  intros Hname. split.
  - unfold evalState, resource_fails, exporter_fails.
    rewrite InitProvider_run.
    destruct (resource_stage resource_New ctx cfg) as [res [c1|]];
      [| destruct (exporter_stage otlptrace_New ctx cfg) as [e [c2|]]]; simpl.
    + split; [discriminate |]. intros [Hn _]. exfalso. apply Hn. eauto.
    + split; [discriminate |]. intros [_ Hn]. exfalso. apply Hn. eauto.
    + split; [| reflexivity].
      intros _. split; intros [c Hc]; discriminate Hc.
  - rewrite InitProvider_calls.
    unfold resource_request, builtin_attributes. rewrite Hname.
    eexists. split; [reflexivity |]. split; reflexivity.
Qed.

End Run.

(** ** The middleware shim and the handler built on it *)

Lemma exampleHandler_run mw rw r w :
  calls_since w (execState (exampleHandler mw rw r) w) =
  let root := next_ref w in
  let ctx := {| ctx_deadline := ctx_deadline (req_Context r);
                ctx_span := Some root |} in
  [ Call_Tracer_Start (Tracer_ mw) (req_Context r) "process-user-request" root;
    Call_Span_SetAttributes root
      [ attribute_String "user.id" (Values_Get (Query (RequestURL r)) "id");
        attribute_String "request.type" "user-info" ];
    Call_Tracer_Start (Tracer_ mw) ctx "database-query" (S root);
    Call_time_Sleep (200 * time_Millisecond)%Z;
    Call_Span_End (S root);
    Call_Tracer_Start (Tracer_ mw) ctx "process-user-data" (S (S root));
    Call_time_Sleep (150 * time_Millisecond)%Z;
    Call_Span_End (S (S root));
    Call_Fprintln "Processamento de usuário concluído com rastreamento!";
    Call_Span_End root ].
Proof.
  apply calls_since_app. unfold exampleHandler. cbn.
  rewrite <- !app_assoc. reflexivity.
Qed.

(** C2, as the code has it.  The middleware built from a handle and a
    name holds the tracer [GetTracer] gives for that name and nothing
    else.  The handler built on it opens every request with a span of
    that tracer under the fixed name [process-user-request], started from
    the request's context; it gives the span the attributes [user.id]
    (the request's [id] query parameter) and [request.type]; and the end
    of that span is its last call, whatever writing the response
    reported. *)
Theorem exampleHandler_traces_request p name mw rw r w :
  NewTracerMiddleware (Some p) name = Returns mw ->
  GetTracer (Some p) name = Returns (Tracer_ mw) /\
  exists rest,
    calls_since w (execState (exampleHandler mw rw r) w) =
      (Call_Tracer_Start (Tracer_ mw) (req_Context r) "process-user-request"
         (next_ref w) ::
       Call_Span_SetAttributes (next_ref w)
         [ attribute_String "user.id" (Values_Get (Query (RequestURL r)) "id");
           attribute_String "request.type" "user-info" ] ::
       rest ++ [ Call_Span_End (next_ref w) ])%list /\
    Forall (fun c => c <> Call_Span_End (next_ref w)) rest.
Proof.
  unfold NewTracerMiddleware. intros H.
  destruct (GetTracer (Some p) name) as [t | msg] eqn:Ht; [| discriminate H].
  injection H as <-. split; [reflexivity |].
  rewrite exampleHandler_run. cbv zeta.
  eexists. split.
  - do 2 f_equal.
    change (?a :: ?b :: ?c :: ?d :: ?e :: ?f :: ?g :: [?h]) with
      ([a; b; c; d; e; f; g] ++ [h])%list.
    reflexivity.
  - repeat constructor; try discriminate;
      intros Heq; injection Heq as Heq; lia.
Qed.

(** ** The claims at concrete inputs *)

Lemma main_run_eq :
  runState (InitProvider ok_resource ok_exporter context_Background
              main_config) w0 = main_run.
Proof. vm_compute. reflexivity. Qed.

Lemma reinstall_run_eq :
  runState (InitProvider ok_resource ok_exporter context_Background
              main_config) w1 = reinstall_run.
Proof. vm_compute. reflexivity. Qed.

Lemma unreachable_run_eq :
  runState (InitProvider ok_resource bad_exporter context_Background
              main_config) w1 = unreachable_run.
Proof. vm_compute. reflexivity. Qed.

Lemma invalid_run_eq :
  runState (InitProvider bad_resource ok_exporter context_Background
              main_config) w0 = invalid_run.
Proof. vm_compute. reflexivity. Qed.

Lemma unnamed_run_eq :
  runState (InitProvider ok_resource ok_exporter context_Background
              unnamed_config) w0 = unnamed_run.
Proof. vm_compute. reflexivity. Qed.

(** The exporter cannot be built while an earlier provider is installed:
    the earlier provider stays. *)
Lemma InitProvider_failure_installs_nothing_witness :
  exporter_fails bad_exporter context_Background main_config /\
  fst (fst unreachable_run) = None /\
  globals (snd unreachable_run) = globals w1 /\
  global_tracerProvider (globals (snd unreachable_run)) = Some earlier_provider.
Proof.
  assert (Hex : exporter_fails bad_exporter context_Background main_config).
  { exists (errors_New "context deadline exceeded"). reflexivity. }
  destruct (InitProvider_failure_installs_nothing ok_resource bad_exporter
              context_Background main_config w1 _ _ _ unreachable_run_eq)
    as [Hfail _].
  destruct (Hfail (or_intror Hex)) as (Hp & _ & Hg & _).
  split; [exact Hex |]. split; [exact Hp |]. split; [exact Hg |].
  exact (f_equal global_tracerProvider Hg).
Defined.

Lemma InitProvider_success_installs_two_witness :
  exists prov tp,
    fst (fst reinstall_run) = Some prov /\
    tracerProvider prov = Some tp /\
    tp_ref tp = 1 /\
    globals (snd reinstall_run) =
      {| global_tracerProvider := Some tp;
         global_propagator :=
           Some (propagation_Composite
                   [ propagation_TraceContext; propagation_Baggage ]);
         global_meterProvider := Some 7;
         global_errorHandler := None |}.
Proof.
  destruct (InitProvider_success_installs_two ok_resource ok_exporter
              context_Background main_config w1 _ _ _ reinstall_run_eq)
    as (tp & Htp & Href & _ & _ & Hg).
  eexists. exists tp.
  split; [reflexivity |]. split; [exact Htp |]. split; [exact Href | exact Hg].
Defined.

Lemma InitProvider_error_names_stage_witness :
  exists err,
    snd (fst invalid_run) = Some err /\
    Error err = "failed to create resource: invalid attribute" /\
    Unwrap err = Some (errors_New "invalid attribute").
Proof.
  eexists. split; [reflexivity |].
  destruct (InitProvider_error_names_stage bad_resource ok_exporter
              context_Background main_config w0 _ _ _ invalid_run_eq)
    as [(cause & Hc & Hmsg & Hun & _) | (Hnone & _)].
  - injection Hc as <-. split; [exact Hmsg | exact Hun].
  - discriminate Hnone.
Defined.

Lemma GetTracer_never_fails_witness :
  exists t,
    GetTracer main_provider "manual-example" = Returns t /\
    tracer_name t = "manual-example" /\
    global_tracerProvider (globals main_world) = Some (tracer_provider t).
Proof.
  destruct (GetTracer_never_fails ok_resource ok_exporter context_Background
              main_config w0 _ _ _ "manual-example" main_run_eq)
    as (t & Ht & Hname & _ & Hglobal & _).
  exists t. split; [exact Ht |]. split; [exact Hname | exact Hglobal].
Defined.

Lemma InitProvider_accepts_empty_service_name_witness :
  ServiceName unnamed_config = "" /\
  snd (evalState (InitProvider ok_resource ok_exporter context_Background
                    unnamed_config) w0) = None.
Proof.
  destruct (InitProvider_accepts_empty_service_name ok_resource ok_exporter
              context_Background unnamed_config w0 eq_refl) as [Hacc _].
  split; [reflexivity |].
  apply Hacc. split; intros [c Hc]; discriminate Hc.
Defined.

(** C6 fails as stated: with both stages succeeding, the run on an
    unnamed configuration is accepted, but the service-name label it asks
    for is the empty string, not a default. *)
Lemma empty_service_name_is_not_defaulted :
  ~ accepts_and_defaults ok_resource ok_exporter context_Background
      unnamed_config w0.
Proof.
  unfold accepts_and_defaults, execState.
  rewrite unnamed_run_eq.
  intros [_ (d & Hd & Hl)].
  vm_compute in Hl. injection Hl as <-.
  apply Hd. reflexivity.
Qed.

Lemma exampleHandler_traces_request_witness :
  exists mw rest,
    NewTracerMiddleware main_provider "api-handlers" = Returns mw /\
    calls_since main_world
      (execState (exampleHandler mw broken_writer users_request) main_world) =
      (Call_Tracer_Start (Tracer_ mw) context_Background "process-user-request" 1 ::
       Call_Span_SetAttributes 1
         [ attribute_String "user.id" "42";
           attribute_String "request.type" "user-info" ] ::
       rest ++ [ Call_Span_End 1 ])%list.
Proof.
  eexists.
  destruct (exampleHandler_traces_request _ "api-handlers" _ broken_writer
              users_request main_world
              (eq_refl : NewTracerMiddleware main_provider "api-handlers" = Returns _))
    as (_ & rest & Hcalls & _).
  exists rest. split; [reflexivity | exact Hcalls].
Defined.

(** C2 fails as stated: served through the middleware of [main], the
    request [GET /api/users?id=42] opens with a span that is not named
    after its method and target. *)
Lemma exampleHandler_span_not_named_after_request :
  exists mw,
    NewTracerMiddleware main_provider "api-handlers" = Returns mw /\
    ~ wraps_request
        (calls_since main_world
           (execState (exampleHandler mw good_writer users_request) main_world))
        users_request.
Proof.
  eexists. split; [reflexivity |].
  intros [(t & ctx & target & span & Hhd) _].
  rewrite exampleHandler_run in Hhd. simpl in Hhd.
  discriminate Hhd.
Qed.

(** ** Further properties of the initializer *)

Lemma second_run_eq :
  runState (InitProvider ok_resource ok_exporter context_Background
              unnamed_config) main_world = second_run.
Proof. vm_compute. reflexivity. Qed.

Lemma prefix_app (p x : string) : prefix p (p ++ x) = true.
Proof.
  induction p as [|a p IH]; simpl.
  - destruct x; reflexivity.
  - destruct (Ascii.ascii_dec a a) as [_ | Hne]; [exact IH | contradiction].
Qed.

Section Initializer_facts.

Variable resource_New :
  Context -> list resource_Option -> option Resource * option error.
Variable otlptrace_New :
  Context -> Client -> option Exporter * option error.

Ltac by_stages H :=
  rewrite InitProvider_run in H;
  let Hr := fresh "Hres" in
  let He := fresh "Hexp" in
  destruct (resource_stage _ _ _) as [?res [?cause|]] eqn:Hr;
    [| destruct (exporter_stage _ _ _) as [?e [?cause|]] eqn:He];
    inversion H; subst; clear H.

(** X1.  [InitProvider] never reads [cfg.Timeout]: changing it alone
    changes neither the calls made, nor the globals, nor the error, nor
    the tracer provider of the handle. *)
Theorem InitProvider_ignores_Timeout ctx cfg t w :
  snd (runState (InitProvider resource_New otlptrace_New ctx (set_Timeout cfg t)) w) =
    snd (runState (InitProvider resource_New otlptrace_New ctx cfg) w) /\
  snd (fst (runState (InitProvider resource_New otlptrace_New ctx (set_Timeout cfg t)) w)) =
    snd (fst (runState (InitProvider resource_New otlptrace_New ctx cfg) w)) /\
  option_map tracerProvider
    (fst (fst (runState (InitProvider resource_New otlptrace_New ctx (set_Timeout cfg t)) w))) =
  option_map tracerProvider
    (fst (fst (runState (InitProvider resource_New otlptrace_New ctx cfg) w))).
Proof.
  rewrite !InitProvider_run.
  change (resource_stage resource_New ctx (set_Timeout cfg t))
    with (resource_stage resource_New ctx cfg).
  change (exporter_stage otlptrace_New ctx (set_Timeout cfg t))
    with (exporter_stage otlptrace_New ctx cfg).
  destruct (resource_stage resource_New ctx cfg) as [res [c1|]];
    [| destruct (exporter_stage otlptrace_New ctx cfg) as [e [c2|]]];
    repeat split.
Qed.

(** X2.  Of two successful initialisations the later one wins: its
    provider, a different object from the first one's, is the global
    tracer provider afterwards, while tracers of the first handle stay
    bound to the provider that was replaced. *)
Theorem InitProvider_twice_last_wins ctx1 cfg1 ctx2 cfg2 w p1 e1 w1 p2 e2 w2 name :
  runState (InitProvider resource_New otlptrace_New ctx1 cfg1) w = (Some p1, e1, w1) ->
  runState (InitProvider resource_New otlptrace_New ctx2 cfg2) w1 = (Some p2, e2, w2) ->
  exists tp1 tp2,
    tracerProvider p1 = Some tp1 /\
    tracerProvider p2 = Some tp2 /\
    tp1 <> tp2 /\
    global_tracerProvider (globals w2) = Some tp2 /\
    GetTracer (Some p1) name = Returns (TracerProvider_Tracer tp1 name).
Proof.
  intros H1 H2.
  rewrite InitProvider_run in H1.
  destruct (resource_stage resource_New ctx1 cfg1) as [r1 [c|]];
    [discriminate H1 |].
  destruct (exporter_stage otlptrace_New ctx1 cfg1) as [x1 [c|]];
    [discriminate H1 |].
  inversion H1; subst; clear H1.
  rewrite InitProvider_run in H2.
  destruct (resource_stage resource_New ctx2 cfg2) as [r2 [c|]];
    [discriminate H2 |].
  destruct (exporter_stage otlptrace_New ctx2 cfg2) as [x2 [c|]];
    [discriminate H2 |].
  inversion H2; subst; clear H2.
  eexists. eexists.
  split; [reflexivity |]. split; [reflexivity |].
  split; [| split; reflexivity].
  intros Heq. apply (f_equal tp_ref) in Heq. simpl in Heq. lia.
Qed.

(** X3.  The provider of a successful run is built with the sampler of
    the configuration, the resource the resource stage returned and a
    batch span processor over the exporter the exporter stage returned;
    the handle keeps the configuration it was given. *)
Theorem InitProvider_provider_wiring ctx cfg w prov e w' :
  runState (InitProvider resource_New otlptrace_New ctx cfg) w = (Some prov, e, w') ->
  config prov = cfg /\
  exists tp,
    tracerProvider prov = Some tp /\
    tp_options tp =
      [ sdktrace_WithSampler (Sampler_ cfg);
        sdktrace_WithResource (fst (resource_stage resource_New ctx cfg));
        sdktrace_WithSpanProcessor
          {| bsp_exporter := fst (exporter_stage otlptrace_New ctx cfg) |} ] /\
    In (Call_NewBatchSpanProcessor (fst (exporter_stage otlptrace_New ctx cfg)))
       (calls_since w w').
Proof.
  intros H. rewrite InitProvider_run in H.
  destruct (resource_stage resource_New ctx cfg) as [res [c1|]];
    [discriminate H |].
  destruct (exporter_stage otlptrace_New ctx cfg) as [ex [c2|]];
    [discriminate H |].
  inversion H; subst; clear H.
  split; [reflexivity |]. eexists. split; [reflexivity |].
  split; [reflexivity |].
  erewrite calls_since_app by reflexivity. simpl. auto.
Qed.

(** X4.  [InitProvider] returns either a nil handle with an error or a
    handle with a nil error, never both and never neither. *)
Theorem InitProvider_handle_xor_error ctx cfg w :
  (fst (evalState (InitProvider resource_New otlptrace_New ctx cfg) w) = None /\
   exists err,
     snd (evalState (InitProvider resource_New otlptrace_New ctx cfg) w) = Some err)
  \/
  (snd (evalState (InitProvider resource_New otlptrace_New ctx cfg) w) = None /\
   exists prov,
     fst (evalState (InitProvider resource_New otlptrace_New ctx cfg) w) = Some prov).
Proof.
  unfold evalState. rewrite InitProvider_run.
  destruct (resource_stage resource_New ctx cfg) as [res [c1|]];
    [| destruct (exporter_stage otlptrace_New ctx cfg) as [ex [c2|]]]; simpl;
    [left | left | right]; split; eauto.
Qed.

(** X5.  Both constructors get the caller's context as it is.  The
    exporter is constructed at most once per run, never after a failed
    resource stage, and over a client whose dial option asks for a
    blocking dial. *)
Theorem InitProvider_dials_with_caller_context ctx cfg w :
  Forall (eq ctx)
    (constructor_contexts
       (calls_since w (execState (InitProvider resource_New otlptrace_New ctx cfg) w))) /\
  exporter_dials
    (calls_since w (execState (InitProvider resource_New otlptrace_New ctx cfg) w)) =
    match snd (resource_stage resource_New ctx cfg) with
    | Some _ => []
    | None =>
        [ (ctx,
           {| client_options :=
                [ otlptracegrpc_WithInsecure;
                  otlptracegrpc_WithEndpoint (OtelEndpoint cfg);
                  otlptracegrpc_WithDialOption grpc_WithBlock ] |}) ]
    end.
Proof.
  rewrite InitProvider_calls.
  destruct (resource_stage resource_New ctx cfg) as [res [c1|]];
    [| destruct (exporter_stage otlptrace_New ctx cfg) as [ex [c2|]]]; simpl;
    split; try reflexivity; repeat constructor.
Qed.

(** X6.  The message of a returned error tells the stage apart: it
    starts with the resource prefix exactly when the resource stage
    failed, and with the exporter prefix exactly when the resource stage
    succeeded and the exporter stage failed. *)
Theorem InitProvider_error_prefix_tells_stage ctx cfg w p err w' :
  runState (InitProvider resource_New otlptrace_New ctx cfg) w = (p, Some err, w') ->
  (prefix "failed to create resource: " (Error err) = true <->
     resource_fails resource_New ctx cfg) /\
  (prefix "failed to create trace exporter: " (Error err) = true <->
     snd (resource_stage resource_New ctx cfg) = None /\
     exporter_fails otlptrace_New ctx cfg).
Proof.
  intros H. unfold resource_fails, exporter_fails. by_stages H.
  - split; split.
    + intros _. eexists. reflexivity.
    + intros _. apply prefix_app.
    + intros Hp. vm_compute in Hp. discriminate Hp.
    + intros [Hn _]. discriminate Hn.
  - split; split.
    + intros Hp. vm_compute in Hp. discriminate Hp.
    + intros [c Hc]. discriminate Hc.
    + intros _. split; [reflexivity | eexists; reflexivity].
    + intros _. apply prefix_app.
Qed.

(** X7.  The attribute list of the resource request is not deduplicated:
    it has three entries more than the caller's list, and for each
    built-in key the values asked for are the configured one followed by
    every value the caller gave under the same key. *)
Theorem InitProvider_keeps_duplicate_keys ctx cfg w :
  exists attrs,
    hd_error
      (calls_since w (execState (InitProvider resource_New otlptrace_New ctx cfg) w)) =
      Some (Call_resource_New ctx
              [ resource_WithAttributes attrs;
                resource_WithProcessRuntimeDescription;
                resource_WithTelemetrySDK ]) /\
    length attrs = 3 + length (Attributes cfg) /\
    labels "service.name" attrs =
      STRING (ServiceName cfg) :: labels "service.name" (Attributes cfg) /\
    labels "service.version" attrs =
      STRING (ServiceVersion cfg) :: labels "service.version" (Attributes cfg) /\
    labels "environment" attrs =
      STRING (Environment cfg) :: labels "environment" (Attributes cfg).
Proof.
  rewrite InitProvider_calls.
  exists (builtin_attributes cfg ++ Attributes cfg)%list.
  repeat split.
Qed.

(** X8.  On the handle of a successful run [GetTracerProvider] returns
    the very provider that the run installed as the global one. *)
Theorem GetTracerProvider_is_installed ctx cfg w prov e w' :
  runState (InitProvider resource_New otlptrace_New ctx cfg) w = (Some prov, e, w') ->
  GetTracerProvider (Some prov) = Returns (global_tracerProvider (globals w')) /\
  exists tp,
    global_tracerProvider (globals w') = Some tp /\ tp_ref tp = next_ref w.
Proof.
  intros H. by_stages H.
  split; [reflexivity |]. eexists. split; reflexivity.
Qed.


(** X10.  After a successful run the middleware can always be built from
    the handle, and every span the handler then starts is started with a
    tracer of the globally installed provider under the middleware's
    name. *)
Theorem middleware_spans_reach_installed_provider ctx cfg w prov e w' name :
  runState (InitProvider resource_New otlptrace_New ctx cfg) w = (Some prov, e, w') ->
  exists mw,
    NewTracerMiddleware (Some prov) name = Returns mw /\
    (forall rw r s,
       Forall (fun t =>
                 global_tracerProvider (globals w') = Some (tracer_provider t) /\
                 tracer_name t = name)
         (span_tracers (calls_since s (execState (exampleHandler mw rw r) s)))).
Proof.
  intros H. by_stages H.
  eexists. split; [reflexivity |].
  intros rw r s. rewrite exampleHandler_run. simpl.
  repeat constructor.
Qed.

End Initializer_facts.

(** ** Further properties of the handlers *)

Lemma Values_Get_missing (v : Values) (key : string) :
  (forall vs, ~ In (key, vs) v) -> Values_Get v key = "".
Proof.
  induction v as [| [k vs] rest IH]; intros Hmiss; simpl.
  - reflexivity.
  - destruct (String.eqb_spec k key) as [-> | Hne].
    + exfalso. apply (Hmiss vs). left. reflexivity.
    + apply IH. intros vs' Hin. apply (Hmiss vs'). right. exact Hin.
Qed.

Lemma exampleHandler_state mw rw r w :
  execState (exampleHandler mw rw r) w =
  {| globals := globals w;
     calls := (calls w ++ calls_since w (execState (exampleHandler mw rw r) w))%list;
     next_ref := 3 + next_ref w |}.
Proof.
  rewrite exampleHandler_run.
  unfold exampleHandler. cbn. rewrite <- !app_assoc. reflexivity.
Qed.

Lemma manualTraceHandler_run p tp rw r w :
  tracerProvider p = Some tp ->
  runState (manualTraceHandler (Some p) rw r) w =
  (Returns tt,
   {| globals := globals w;
      calls :=
        (calls w ++
         [ Call_Tracer_Start (TracerProvider_Tracer tp "manual-example")
             (req_Context r) "manual-operation" (next_ref w);
           Call_Span_SetAttributes (next_ref w)
             [ attribute_String "example.key" "example-value" ];
           Call_time_Sleep (100 * time_Millisecond)%Z;
           Call_Fprintln "Operação com trace manual completada!";
           Call_Span_End (next_ref w) ])%list;
      next_ref := S (next_ref w) |}).
Proof.
  intros Htp. unfold manualTraceHandler, GetTracer. rewrite Htp.
  cbn. rewrite <- !app_assoc. reflexivity.
Qed.

(** X11.  Whatever the request and the writer, the handler keeps the
    discipline of spans: each span it starts is ended, the inner ones
    before the outer one, attributes go to a span that is still open, and
    no span is left open when it returns. *)
Theorem exampleHandler_well_nested mw rw r w :
  well_nested (calls_since w (execState (exampleHandler mw rw r) w)) = true.
Proof.
  rewrite exampleHandler_run. unfold well_nested. cbn.
  repeat (rewrite Nat.eqb_refl; cbn). reflexivity.
Qed.

(** X12.  The handler starts three spans with fresh consecutive
    identifiers: the request span, child of whatever span the request's
    context carries, and the two work spans, both direct children of the
    request span (the second is not nested in the first). *)
Theorem exampleHandler_span_tree mw rw r w :
  started_spans (calls_since w (execState (exampleHandler mw rw r) w)) =
  [ ("process-user-request", next_ref w, ctx_span (req_Context r));
    ("database-query", S (next_ref w), Some (next_ref w));
    ("process-user-data", S (S (next_ref w)), Some (next_ref w)) ].
Proof.
  rewrite exampleHandler_run. reflexivity.
Qed.

(** X13.  The handler leaves the globals of package [otel] alone, keeps
    the earlier log as a prefix of the new one, and takes exactly three
    fresh identifiers. *)
Theorem exampleHandler_frame mw rw r w :
  globals (execState (exampleHandler mw rw r) w) = globals w /\
  next_ref (execState (exampleHandler mw rw r) w) = 3 + next_ref w /\
  firstn (length (calls w)) (calls (execState (exampleHandler mw rw r) w)) = calls w /\
  global_writes (calls_since w (execState (exampleHandler mw rw r) w)) = [].
Proof.
  split; [| split; [| split]].
  - rewrite exampleHandler_state. reflexivity.
  - rewrite exampleHandler_state. reflexivity.
  - rewrite exampleHandler_state. simpl calls.
    rewrite firstn_app, firstn_all, Nat.sub_diag. simpl. apply app_nil_r.
  - rewrite exampleHandler_run. reflexivity.
Qed.

(** X14.  Of a request the handler reads the context and the [id] query
    parameter only, and it discards what writing the response reports:
    two requests that agree on those two are served alike, through any
    two writers. *)
Theorem exampleHandler_reads_context_and_id mw rw rw' r r' w :
  req_Context r = req_Context r' ->
  Values_Get (Query (RequestURL r)) "id" = Values_Get (Query (RequestURL r')) "id" ->
  runState (exampleHandler mw rw r) w = runState (exampleHandler mw rw' r') w.
Proof.
  intros Hctx Hid. unfold exampleHandler. cbn.
  rewrite Hctx, Hid. reflexivity.
Qed.

(** X15.  A request without an [id] query parameter is served all the
    same: the request span gets the attribute [user.id] with the empty
    string. *)
Theorem exampleHandler_missing_id mw rw r w :
  (forall vs, ~ In ("id", vs) (Query (RequestURL r))) ->
  nth_error (calls_since w (execState (exampleHandler mw rw r) w)) 1 =
    Some (Call_Span_SetAttributes (next_ref w)
            [ attribute_String "user.id" "";
              attribute_String "request.type" "user-info" ]).
Proof.
  intros Hmiss. rewrite exampleHandler_run. cbn.
  rewrite (Values_Get_missing _ _ Hmiss). reflexivity.
Qed.

(** X16.  On a handle whose tracer provider is set the manual-trace
    handler returns; it makes five calls, opening with a span named
    [manual-operation] of the tracer [manual-example], started from the
    request's context, and closing with the end of that span; its log is
    well nested and the globals are untouched. *)
Theorem manualTraceHandler_traces_request p tp rw r w :
  tracerProvider p = Some tp ->
  evalState (manualTraceHandler (Some p) rw r) w = Returns tt /\
  calls_since w (execState (manualTraceHandler (Some p) rw r) w) =
    [ Call_Tracer_Start (TracerProvider_Tracer tp "manual-example")
        (req_Context r) "manual-operation" (next_ref w);
      Call_Span_SetAttributes (next_ref w)
        [ attribute_String "example.key" "example-value" ];
      Call_time_Sleep (100 * time_Millisecond)%Z;
      Call_Fprintln "Operação com trace manual completada!";
      Call_Span_End (next_ref w) ] /\
  well_nested (calls_since w (execState (manualTraceHandler (Some p) rw r) w)) = true /\
  globals (execState (manualTraceHandler (Some p) rw r) w) = globals w.
Proof.
  intros Htp. unfold evalState, execState.
  rewrite (manualTraceHandler_run p tp rw r w Htp). cbn [fst snd].
  erewrite calls_since_app by reflexivity.
  split; [reflexivity |]. split; [reflexivity |]. split; [| reflexivity].
  unfold well_nested. cbn.
  repeat (rewrite Nat.eqb_refl; cbn). reflexivity.
Qed.

(** ** The further properties at concrete inputs *)

Lemma InitProvider_twice_last_wins_witness :
  exists tp1 tp2,
    tp1 <> tp2 /\
    global_tracerProvider (globals (snd second_run)) = Some tp2 /\
    GetTracer main_provider "api-handlers" =
      Returns (TracerProvider_Tracer tp1 "api-handlers").
Proof.
  destruct (InitProvider_twice_last_wins ok_resource ok_exporter
              context_Background main_config context_Background unnamed_config
              w0 _ _ _ _ _ _ "api-handlers" main_run_eq second_run_eq)
    as (tp1 & tp2 & _ & _ & Hne & Hg & Ht).
  exists tp1, tp2. split; [exact Hne |]. split; [exact Hg | exact Ht].
Defined.

Lemma InitProvider_provider_wiring_witness :
  exists prov tp,
    main_provider = Some prov /\
    config prov = main_config /\
    tracerProvider prov = Some tp /\
    hd_error (tp_options tp) = Some (sdktrace_WithSampler (Some AlwaysSample)).
Proof.
  destruct (InitProvider_provider_wiring ok_resource ok_exporter
              context_Background main_config w0 _ _ _ main_run_eq)
    as (Hcfg & tp & Htp & Hopts & _).
  eexists. exists tp. split; [reflexivity |]. split; [exact Hcfg |].
  split; [exact Htp |]. rewrite Hopts. reflexivity.
Defined.

Lemma InitProvider_error_prefix_tells_stage_witness :
  exists err,
    snd (fst unreachable_run) = Some err /\
    prefix "failed to create trace exporter: " (Error err) = true /\
    prefix "failed to create resource: " (Error err) = false.
Proof.
  eexists. split; [reflexivity |].
  destruct (InitProvider_error_prefix_tells_stage ok_resource bad_exporter
              context_Background main_config w1 _ _ _ unreachable_run_eq)
    as [Hres Hexp].
  split.
  - apply Hexp. split; [reflexivity |].
    exists (errors_New "context deadline exceeded"). reflexivity.
  - destruct (prefix "failed to create resource: " _) eqn:Hp; [| reflexivity].
    destruct (proj1 Hres eq_refl) as [c Hc]. discriminate Hc.
Defined.

Lemma GetTracerProvider_is_installed_witness :
  GetTracerProvider (fst (fst reinstall_run)) =
    Returns (global_tracerProvider (globals (snd reinstall_run))) /\
  exists tp,
    global_tracerProvider (globals (snd reinstall_run)) = Some tp /\
    tp_ref tp = 1.
Proof.
  exact (GetTracerProvider_is_installed ok_resource ok_exporter
           context_Background main_config w1 _ _ _ reinstall_run_eq).
Defined.


Lemma middleware_spans_reach_installed_provider_witness :
  exists mw,
    NewTracerMiddleware main_provider "api-handlers" = Returns mw /\
    Forall (fun t =>
              global_tracerProvider (globals main_world) = Some (tracer_provider t) /\
              tracer_name t = "api-handlers")
      (span_tracers
         (calls_since main_world
            (execState (exampleHandler mw good_writer users_request) main_world))).
Proof.
  destruct (middleware_spans_reach_installed_provider ok_resource ok_exporter
              context_Background main_config w0 _ _ _ "api-handlers" main_run_eq)
    as (mw & Hmw & Hspans).
  exists mw. split; [exact Hmw |].
  exact (Hspans good_writer users_request main_world).
Defined.

Lemma exampleHandler_reads_context_and_id_witness :
  Values_Get (Query (RequestURL people_request)) "id" = "42" /\
  runState (exampleHandler
              {| Tracer_ := TracerProvider_Tracer earlier_provider "api-handlers" |}
              good_writer users_request) w1 =
  runState (exampleHandler
              {| Tracer_ := TracerProvider_Tracer earlier_provider "api-handlers" |}
              broken_writer people_request) w1.
Proof.
  split; [reflexivity |].
  apply exampleHandler_reads_context_and_id; reflexivity.
Defined.

Lemma exampleHandler_missing_id_witness :
  nth_error
    (calls_since w1
       (execState (exampleHandler
                     {| Tracer_ := TracerProvider_Tracer earlier_provider "api-handlers" |}
                     good_writer health_request) w1)) 1 =
    Some (Call_Span_SetAttributes 1
            [ attribute_String "user.id" "";
              attribute_String "request.type" "user-info" ]).
Proof.
  apply (exampleHandler_missing_id
           {| Tracer_ := TracerProvider_Tracer earlier_provider "api-handlers" |}
           good_writer health_request w1).
  intros vs Hin. simpl in Hin.
  destruct Hin as [Heq | []]. discriminate Heq.
Defined.

Lemma manualTraceHandler_traces_request_witness :
  evalState (manualTraceHandler (Some earlier_handle) broken_writer health_request) w1 =
    Returns tt /\
  well_nested
    (calls_since w1
       (execState (manualTraceHandler (Some earlier_handle) broken_writer
                     health_request) w1)) = true.
Proof.
  destruct (manualTraceHandler_traces_request earlier_handle earlier_provider
              broken_writer health_request w1 eq_refl)
    as (Hret & _ & Hnest & _).
  split; [exact Hret | exact Hnest].
Defined.
